(** * Validex: the sample-PDF fixture script [backend/create_test_pdf.py]

    A shallow embedding of the script and the properties its specification
    states about it.

    The script is one straight-line Python module: it fills the list
    [story] with reportlab flowables, hands the list to
    [SimpleDocTemplate.build] and prints three lines.  The embedding keeps
    that shape: the module's global variables are the fields of a [State],
    every statement is a computation in a state-and-exception monad [M], and
    the two ways the script touches the world outside the interpreter (the
    call into reportlab and [print]) are recorded, in order, in a trace.

    reportlab and the standard output are not part of the repository.  The
    [build] method and the write behind [print] are parameters of the
    development ([build] and [stdout_write] below): nothing is assumed
    about them.  The build may fail, change the environment and even change
    the list it was handed; a print may fail (the console cannot encode the
    check mark of line 78, the pipe is closed) and change the environment.

    The constructor [Paragraph(text, style)] is reportlab's too: it parses
    the markup and tidies the white space of [text], and raises [ValueError]
    on bad markup.  Here a paragraph is the pair of the text and the style
    it was created from, and creating one always succeeds.  That is how
    reportlab treats the texts of the script itself; for other records the
    theorems below only state what does not depend on it (what holds when
    the loop returns, what the loop leaves alone, what it reads).  *)

From stdpp Require Import base strings list gmap pretty.

Open Scope string_scope.
Open Scope list_scope.

(** ** Data model *)

(** Lengths.  The script writes [1] (points) and [0.1*inch], [0.2*inch],
    [0.3*inch]; the floating-point product is kept symbolic, as a number of
    tenths of an inch. *)
Inductive Length : Type :=
  | pt (n : Z)
  | tenth_inch (n : Z).

(** [reportlab.lib.pagesizes]: only [letter] is imported. *)
Inductive PageSize : Type :=
  | letter.

(** A paragraph style is either an entry of the sample style sheet,
    [styles['Heading2']], or a [ParagraphStyle(...)] built by the script. *)
Inductive Style : Type :=
  | SampleStyle (name : string)
  | ParagraphStyle (name : string) (parent : Style)
                   (fontSize : Z) (textColor : string) (spaceAfter : Z).

(** The flowables the script creates.  [Paragraph text style] stands for
    the object made by [Paragraph(text, style)]: it records the arguments
    of the call, not what reportlab's parser keeps of the text.
    [PageBreak] is imported and never used. *)
Inductive Flowable : Type :=
  | Paragraph (text : string) (style : Style)
  | Spacer (width height : Length).

Record SimpleDocTemplate : Type := mkDoc {
  filename : string;
  pagesize : PageSize;
}.

(** A provider is a Python dict from field names to strings. *)
Abbreviation Provider := (gmap string string).

(** Python exceptions the script can meet: a missing dict key, whatever the
    layout library raises, and whatever writing to standard output raises
    (both named by their class). *)
Inductive Exn : Type :=
  | KeyError (key : string)
  | LibraryError (class : string)
  | OutputError (class : string).

Inductive Outcome (A : Type) : Type :=
  | Returned (a : A)
  | Raised (e : Exn).
Arguments Returned {A} a.
Arguments Raised {A} e.

(** What the script does to the outside world: a call of [build], recorded
    when it is made, and a line written by a [print] that returned. *)
Inductive Event : Type :=
  | EvBuild (d : SimpleDocTemplate) (flowables : list Flowable)
  | EvPrint (line : string).

(** ** Constants of the module *)

(** Line 11. *)
Definition pdf_file : string := "test_providers.pdf".

(** Line 12. *)
Definition doc : SimpleDocTemplate :=
  {| filename := pdf_file; pagesize := letter |}.

(** Line 14: [styles = getSampleStyleSheet()], then [styles[name]]. *)
Definition styles (name : string) : Style := SampleStyle name.

(** Lines 17-23. *)
Definition title_style : Style :=
  ParagraphStyle "CustomTitle" (styles "Heading1") 16 "#000000" 12.

(** Lines 30-63. *)
Definition providers : list Provider :=
  [ {[ "name" := "Dr. John Smith";
       "npi" := "NPI: 1234567890";
       "phone" := "Phone: (555) 123-4567";
       "address" := "123 Main Street";
       "city" := "New York, NY 10001";
       "specialty" := "Cardiologist" ]};
    {[ "name" := "Dr. Jane Doe";
       "npi" := "NPI: 0987654321";
       "phone" := "Phone: (555) 987-6543";
       "address" := "456 Oak Avenue";
       "city" := "Los Angeles, CA 90001";
       "specialty" := "Physician" ]};
    {[ "name" := "Dr. Michael Johnson";
       "npi" := "NPI: 1111111111";
       "phone" := "Phone: (555) 111-2222";
       "address" := "789 Elm Street";
       "city" := "Chicago, IL 60601";
       "specialty" := "Dentist" ]};
    {[ "name" := "Dr. Sarah Williams";
       "npi" := "NPI: 2222222222";
       "phone" := "Phone: (555) 222-3333";
       "address" := "321 Pine Road";
       "city" := "Houston, TX 77001";
       "specialty" := "Surgeon" ]} ].

(** The check mark U+2713 that opens the first printed line, as its three
    UTF-8 bytes. *)
Definition check_mark : string :=
  String (Ascii.ascii_of_nat 226)
    (String (Ascii.ascii_of_nat 156)
       (String (Ascii.ascii_of_nat 147) EmptyString)).

(** [str(n)] for a non-negative Python int. *)
Definition str (n : nat) : string := pretty n.

(** ** The interpreter state and the monad of statements *)

Section Script.

(** Everything outside the interpreter: the file system, the process
    arguments, the environment variables, the clock. *)
Variable Env : Type.

(** [doc.build(flowables)]: returns or raises, and leaves behind a
    possibly changed list (the list is passed by reference) and a possibly
    changed environment. *)
Variable build :
  SimpleDocTemplate → list Flowable → Env → Outcome unit * (list Flowable * Env).

(** Writing one line to [sys.stdout]: returns or raises, and leaves behind a
    possibly changed environment. *)
Variable stdout_write : string → Env → Outcome unit * Env.

(** The module's globals that change, the trace (oldest event first) and
    the environment. *)
Record State : Type := mkState {
  g_story : list Flowable;
  g_providers : list Provider;
  trace : list Event;
  env : Env;
}.

Definition M (A : Type) : Type := State → Outcome A * State.

#[global] Instance M_ret : MRet M := λ A a st, (Returned a, st).

#[global] Instance M_bind : MBind M := λ A B f m st,
  match m st with
  | (Returned a, st') => f a st'
  | (Raised e, st') => (Raised e, st')
  end.

(** [story = flowables] *)
Definition set_story (fs : list Flowable) : M unit := λ st,
  (Returned tt,
   {| g_story := fs; g_providers := g_providers st;
      trace := trace st; env := env st |}).

(** [story.append(f)] *)
Definition story_append (f : Flowable) : M unit := λ st,
  (Returned tt,
   {| g_story := g_story st ++ [f]; g_providers := g_providers st;
      trace := trace st; env := env st |}).

(** [providers = ps] *)
Definition set_providers (ps : list Provider) : M unit := λ st,
  (Returned tt,
   {| g_story := g_story st; g_providers := ps;
      trace := trace st; env := env st |}).

(** Reading the global [providers]. *)
Definition get_providers : M (list Provider) := λ st,
  (Returned (g_providers st), st).

(** [d[key]] on a dict: the value, or [KeyError]. *)
Definition getitem (d : Provider) (key : string) : M string := λ st,
  match d !! key with
  | Some v => (Returned v, st)
  | None => (Raised (KeyError key), st)
  end.

(** [print(line)]: the line is on the console once the write has returned;
    a write that raises ends the statement with its exception. *)
Definition print (line : string) : M unit := λ st,
  match stdout_write line (env st) with
  | (Returned _, env') =>
      (Returned tt,
       {| g_story := g_story st; g_providers := g_providers st;
          trace := trace st ++ [EvPrint line]; env := env' |})
  | (Raised x, env') =>
      (Raised x,
       {| g_story := g_story st; g_providers := g_providers st;
          trace := trace st; env := env' |})
  end.

(** [d.build(story)]: the call is recorded with the list as it is handed
    over; afterwards [story] is whatever the library left in it. *)
Definition doc_build (d : SimpleDocTemplate) : M unit := λ st,
  let '(r, (fs', env')) := build d (g_story st) (env st) in
  (r,
   {| g_story := fs'; g_providers := g_providers st;
      trace := trace st ++ [EvBuild d (g_story st)]; env := env' |}).

(** Lines 67-74, the body of the loop. *)
Definition loop_body (i : nat) (provider : Provider) : M unit :=
  name ← getitem provider "name";
  story_append (Paragraph (str i +:+ ". " +:+ name) (styles "Heading2"));;
  story_append (Spacer (pt 1) (tenth_inch 1));;
  npi ← getitem provider "npi";
  story_append (Paragraph npi (styles "Normal"));;
  phone ← getitem provider "phone";
  story_append (Paragraph phone (styles "Normal"));;
  address ← getitem provider "address";
  story_append (Paragraph address (styles "Normal"));;
  city ← getitem provider "city";
  story_append (Paragraph city (styles "Normal"));;
  specialty ← getitem provider "specialty";
  story_append (Paragraph ("<b>Specialty:</b> " +:+ specialty) (styles "Normal"));;
  story_append (Spacer (pt 1) (tenth_inch 2)).

(** [for i, x in enumerate(xs, start): body], for a body that neither
    rebinds nor mutates the list it iterates over, as the body of the
    script's loop: the iteration then runs over the list as read on entry.
    It is used with [loop_body] only. *)
Fixpoint for_enumerate {A : Type} (body : nat → A → M unit)
    (start : nat) (xs : list A) : M unit :=
  match xs with
  | [] => mret tt
  | x :: xs' => body start x;; for_enumerate body (S start) xs'
  end.

(** Line 66. *)
Definition stmt_for : M unit :=
  ps ← get_providers; for_enumerate loop_body 1 ps.

(** Lines 13-74: everything before the build call. *)
Definition assemble : M unit :=
  set_story [];;
  story_append (Paragraph "Provider Directory" title_style);;
  story_append (Spacer (pt 1) (tenth_inch 3));;
  set_providers providers;;
  stmt_for.

(** Lines 78-80. *)
Definition report : M unit :=
  print (check_mark +:+ " Test PDF created: " +:+ pdf_file);;
  (ps ← get_providers;
   print ("  Contains " +:+ str (length ps) +:+ " sample providers"));;
  print "  Upload this file to test the PDF OCR feature".

(** The whole module. *)
Definition script : M unit :=
  assemble;; doc_build doc;; report.

(** The interpreter starts with nothing bound and nothing done. *)
Definition initial (e : Env) : State :=
  {| g_story := []; g_providers := []; trace := []; env := e |}.

Definition run (e : Env) : Outcome unit * State := script (initial e).

(** What a sequence of prints does to an environment: the outcome, the
    lines written before the first failure, and the environment left. *)
Fixpoint print_all (lines : list string) (e : Env)
    : Outcome unit * (list string * Env) :=
  match lines with
  | [] => (Returned tt, ([], e))
  | line :: lines' =>
      match stdout_write line e with
      | (Returned _, e') =>
          let '(r, (written, e'')) := print_all lines' e' in
          (r, (line :: written, e''))
      | (Raised x, e') => (Raised x, ([], e'))
      end
  end.

End Script.

Arguments g_story {Env} _.
Arguments g_providers {Env} _.
Arguments trace {Env} _.
Arguments env {Env} _.
Arguments mkState {Env} _ _ _ _.
Arguments set_story {Env} fs _.
Arguments story_append {Env} f _.
Arguments set_providers {Env} ps _.
Arguments get_providers {Env} _.
Arguments getitem {Env} d key _.
Arguments print {Env} stdout_write line _.
Arguments doc_build {Env} build d _.
Arguments loop_body {Env} i provider.
Arguments for_enumerate {Env A} body start xs.
Arguments stmt_for {Env}.
Arguments assemble {Env}.
Arguments report {Env} stdout_write.
Arguments script {Env} build stdout_write.
Arguments initial {Env} e.
Arguments run {Env} build stdout_write e.
Arguments print_all {Env} stdout_write lines e.

(** ** Observations on a run *)

(** The calls into the layout library, in order. *)
Fixpoint builds (tr : list Event) : list (SimpleDocTemplate * list Flowable) :=
  match tr with
  | [] => []
  | EvBuild d fs :: tr' => (d, fs) :: builds tr'
  | EvPrint _ :: tr' => builds tr'
  end.

(** The lines written to standard output, in order. *)
Fixpoint console (tr : list Event) : list string :=
  match tr with
  | [] => []
  | EvBuild _ _ :: tr' => console tr'
  | EvPrint line :: tr' => line :: console tr'
  end.

Definition exits_normally {A : Type} (r : Outcome A) : bool :=
  match r with
  | Returned _ => true
  | Raised _ => false
  end.

(** ** Vocabulary of the specification *)

(** The six keys of a provider record. *)
Definition field_names : list string :=
  ["name"; "npi"; "phone"; "address"; "city"; "specialty"].

Definition has_fields (p : Provider) : Prop :=
  Forall (λ key, is_Some (p !! key)) field_names.

(** The value stored under [key]; only used for records that have it. *)
Definition field (p : Provider) (key : string) : string :=
  default "" (p !! key).

(** The blocks one provider contributes to the story, in order. *)
Definition entry (i : nat) (p : Provider) : list Flowable :=
  [ Paragraph (str i +:+ ". " +:+ field p "name") (styles "Heading2");
    Spacer (pt 1) (tenth_inch 1);
    Paragraph (field p "npi") (styles "Normal");
    Paragraph (field p "phone") (styles "Normal");
    Paragraph (field p "address") (styles "Normal");
    Paragraph (field p "city") (styles "Normal");
    Paragraph ("<b>Specialty:</b> " +:+ field p "specialty") (styles "Normal");
    Spacer (pt 1) (tenth_inch 2) ].

(** The entries of a list of providers numbered from [start], one group of
    blocks per provider. *)
Fixpoint entry_groups (start : nat) (ps : list Provider) : list (list Flowable) :=
  match ps with
  | [] => []
  | p :: ps' => entry start p :: entry_groups (S start) ps'
  end.

(** The blocks of a list of providers numbered from [start]. *)
Fixpoint entries_from (start : nat) (ps : list Provider) : list Flowable :=
  match ps with
  | [] => []
  | p :: ps' => entry start p ++ entries_from (S start) ps'
  end.

(** The two blocks that open the story. *)
Definition preamble : list Flowable :=
  [ Paragraph "Provider Directory" title_style;
    Spacer (pt 1) (tenth_inch 3) ].

(** The content list of the script's four providers. *)
Definition document : list Flowable :=
  preamble ++ entries_from 1 providers.

(** The three lines the script prints after a successful build. *)
Definition line_created : string :=
  check_mark +:+ " Test PDF created: test_providers.pdf".
Definition line_count : string := "  Contains 4 sample providers".
Definition line_upload : string :=
  "  Upload this file to test the PDF OCR feature".
Definition report_lines : list string :=
  [line_created; line_count; line_upload].

(** The three lines for a list of [n] providers. *)
Definition report_lines_for (n : nat) : list string :=
  [line_created; "  Contains " +:+ str n +:+ " sample providers"; line_upload].

(** What kind of block a flowable is, whatever its text. *)
Inductive Kind : Type :=
  | KParagraph (style : Style)
  | KSpacer (width height : Length).

Definition kind (f : Flowable) : Kind :=
  match f with
  | Paragraph _ style => KParagraph style
  | Spacer w h => KSpacer w h
  end.

(** The kinds of the blocks of one provider entry. *)
Definition entry_kinds : list Kind :=
  [ KParagraph (styles "Heading2");
    KSpacer (pt 1) (tenth_inch 1);
    KParagraph (styles "Normal");
    KParagraph (styles "Normal");
    KParagraph (styles "Normal");
    KParagraph (styles "Normal");
    KParagraph (styles "Normal");
    KSpacer (pt 1) (tenth_inch 2) ].

Fixpoint repeat_kinds (n : nat) : list Kind :=
  match n with
  | 0 => []
  | S n' => entry_kinds ++ repeat_kinds n'
  end.

(** Reading a content list back: a provider entry starts at each
    [Heading2] paragraph and runs up to the next one. *)
Definition is_heading (f : Flowable) : bool :=
  match f with
  | Paragraph _ (SampleStyle name) => String.eqb name "Heading2"
  | _ => false
  end.

Fixpoint chunks (fs : list Flowable) : list Flowable * list (list Flowable) :=
  match fs with
  | [] => ([], [])
  | f :: fs' =>
      let '(pre, groups) := chunks fs' in
      if is_heading f then ([], (f :: pre) :: groups) else (f :: pre, groups)
  end.

Definition provider_entries (fs : list Flowable) : list (list Flowable) :=
  snd (chunks fs).


(** ASCII case folding, to compare labels with the lower-case words of the
    specification. *)
Definition lower_ascii (c : Ascii.ascii) : Ascii.ascii :=
  let n := Ascii.nat_of_ascii c in
  if (65 <=? n)%nat && (n <=? 90)%nat then Ascii.ascii_of_nat (n + 32) else c.

Fixpoint casefold (s : string) : string :=
  match s with
  | EmptyString => EmptyString
  | String c s' => String (lower_ascii c) (casefold s')
  end.

(** A path with no directory part: it names a file of the current working
    directory whatever the platform's separator. *)
Definition is_separator (c : Ascii.ascii) : bool :=
  let n := Ascii.nat_of_ascii c in
  (n =? 47)%nat || (n =? 92)%nat || (n =? 58)%nat.

Fixpoint bare_filename (s : string) : bool :=
  match s with
  | EmptyString => true
  | String c s' => negb (is_separator c) && bare_filename s'
  end.

(** ** A sample environment

    A disk that is writable or not, and a console that takes UTF-8 or only
    ASCII.  The sample library consumes the list it was handed, like
    reportlab, and then writes the content under the document's file name;
    on a read-only disk the write raises and the disk is unchanged.  The
    sample console raises on a line it cannot encode. *)
Record Disk : Type := mkDisk {
  writable : bool;
  files : gmap string (list Flowable);
  utf8_console : bool;
}.

Definition sample_build (d : SimpleDocTemplate) (fs : list Flowable) (k : Disk)
    : Outcome unit * (list Flowable * Disk) :=
  if writable k
  then (Returned tt,
        ([], {| writable := true; files := <[filename d := fs]> (files k);
                utf8_console := utf8_console k |}))
  else (Raised (LibraryError "PermissionError"), ([], k)).

Fixpoint is_ascii (s : string) : bool :=
  match s with
  | EmptyString => true
  | String c s' => (Ascii.nat_of_ascii c <? 128)%nat && is_ascii s'
  end.

Definition sample_write (line : string) (k : Disk) : Outcome unit * Disk :=
  if utf8_console k || is_ascii line
  then (Returned tt, k)
  else (Raised (OutputError "UnicodeEncodeError"), k).

Definition empty_disk : Disk :=
  {| writable := true; files := ∅; utf8_console := true |}.
Definition readonly_disk : Disk :=
  {| writable := false; files := ∅; utf8_console := true |}.
Definition ascii_console : Disk :=
  {| writable := true; files := ∅; utf8_console := false |}.

(** ** Vocabulary for the loop on arbitrary records *)

(** Whether a record lacks a key. *)
Definition lacks (p : Provider) (key : string) : bool :=
  match p !! key with
  | Some _ => false
  | None => true
  end.

(** The first key a record lacks, in the order in which the loop body reads
    the six keys. *)
Definition first_missing (p : Provider) : option string :=
  List.find (lacks p) field_names.

(** How many blocks the loop body has appended when it comes to read
    [key]: none before the name, the heading and the spacer before the npi,
    then one more per key. *)
Definition blocks_before (key : string) : nat :=
  if String.eqb key "name" then 0
  else if String.eqb key "npi" then 2
  else if String.eqb key "phone" then 3
  else if String.eqb key "address" then 4
  else if String.eqb key "city" then 5
  else 6.

(** Sample records: a complete one, the same with a key the script never
    reads, and one that has no address. *)
Definition complete_record : Provider :=
  {[ "name" := "Dr. A"; "npi" := "NPI: 1"; "phone" := "Phone: 2";
     "address" := "3 Elm"; "city" := "Rome"; "specialty" := "Dentist" ]}.
Definition record_with_email : Provider :=
  <[ "email" := "a@example.org" ]> complete_record.
Definition record_without_address : Provider :=
  {[ "name" := "Dr. B"; "npi" := "NPI: 9"; "phone" := "Phone: 8";
     "city" := "Oslo"; "specialty" := "Surgeon" ]}.

(** ** The model at work *)

Example str_of_index : str 1 = "1" ∧ str 4 = "4" ∧ str 12 = "12".
Proof. repeat split. Qed.

(** A record with no phone: the heading, the spacer and the npi line are
    appended, then [provider['phone']] raises. *)
Example loop_body_without_phone :
  loop_body 3 {[ "name" := "Dr. X"; "npi" := "NPI: 0" ]} (initial tt) =
  (Raised (KeyError "phone"),
   mkState [ Paragraph "3. Dr. X" (styles "Heading2");
             Spacer (pt 1) (tenth_inch 1);
             Paragraph "NPI: 0" (styles "Normal") ] [] [] tt).
Proof. vm_compute. reflexivity. Qed.

(** A read-only disk: one build call, no line printed, the exception out. *)
Example run_on_readonly_disk :
  run sample_build sample_write readonly_disk =
  (Raised (LibraryError "PermissionError"),
   mkState [] providers [EvBuild doc document] readonly_disk).
Proof. vm_compute. reflexivity. Qed.

(** A console that cannot encode the check mark: the file is written, the
    first print raises, nothing reaches the console. *)
Example run_on_ascii_console :
  fst (run sample_build sample_write ascii_console) =
    Raised (OutputError "UnicodeEncodeError") ∧
  trace (snd (run sample_build sample_write ascii_console)) =
    [EvBuild doc document].
Proof. split; vm_compute; reflexivity. Qed.

(** ** Lemmas on the statements *)

(** Membership in a list given by its elements. *)
Ltac solve_elem_of_list :=
  repeat first [apply list_elem_of_here | apply list_elem_of_further].

Lemma providers_have_fields : Forall has_fields providers.
Proof.
  unfold providers, has_fields, field_names.
  repeat apply Forall_cons_2; try apply Forall_nil_2;
    vm_compute; eexists; reflexivity.
Qed.

Lemma has_fields_lookup (p : Provider) (key : string) :
  has_fields p → key ∈ field_names → p !! key = Some (field p key).
Proof.
  intros Hp Hkey. unfold has_fields in Hp.
  rewrite Forall_forall in Hp. destruct (Hp key Hkey) as [v Hv].
  unfold field. rewrite Hv. reflexivity.
Qed.

Lemma length_entry (i : nat) (p : Provider) : length (entry i p) = 8.
Proof. reflexivity. Qed.

Lemma length_entries_from (ps : list Provider) :
  ∀ start, length (entries_from start ps) = 8 * length ps.
Proof.
  induction ps as [|p ps IH]; intros start; [reflexivity|].
  cbn [entries_from]. rewrite length_app, length_entry, IH. cbn [length]. lia.
Qed.

Lemma entries_from_concat (ps : list Provider) :
  ∀ start, entries_from start ps = concat (entry_groups start ps).
Proof.
  induction ps as [|p ps IH]; intros start; [reflexivity|].
  cbn [entries_from entry_groups concat]. rewrite IH. reflexivity.
Qed.

Lemma entry_groups_lookup (ps : list Provider) :
  ∀ (start k : nat) (p : Provider),
    ps !! k = Some p → entry_groups start ps !! k = Some (entry (start + k) p).
Proof.
  induction ps as [|q ps IH]; intros start k p Hk; [discriminate|].
  destruct k as [|k]; cbn [entry_groups].
  - injection Hk as ->. rewrite Nat.add_0_r. reflexivity.
  - change (entry_groups (S start) ps !! k = Some (entry (start + S k) p)).
    rewrite (IH (S start) k p Hk). do 2 f_equal. lia.
Qed.

Lemma length_entry_groups (ps : list Provider) :
  ∀ start, length (entry_groups start ps) = length ps.
Proof.
  induction ps as [|p ps IH]; intros start; cbn; [reflexivity|].
  rewrite IH. reflexivity.
Qed.

(** Reading back the blocks of one entry followed by [rest]. *)
Lemma chunks_entry (i : nat) (p : Provider) (rest : list Flowable) :
  chunks (entry i p ++ rest) =
  ([], (entry i p ++ fst (chunks rest)) :: snd (chunks rest)).
Proof.
  unfold entry. cbn [app chunks styles is_heading].
  destruct (chunks rest) as [pre groups]. reflexivity.
Qed.

(** Reading back what the loop wrote gives the entries, one per provider. *)
Lemma chunks_entries_from (ps : list Provider) :
  ∀ start, chunks (entries_from start ps) = ([], entry_groups start ps).
Proof.
  induction ps as [|p ps IH]; intros start; [reflexivity|].
  cbn [entries_from entry_groups]. rewrite chunks_entry, IH. cbn [fst snd].
  rewrite app_nil_r. reflexivity.
Qed.

Lemma provider_entries_preamble (ps : list Provider) (start : nat) :
  provider_entries (preamble ++ entries_from start ps) = entry_groups start ps.
Proof.
  unfold provider_entries, preamble. cbn [app chunks is_heading title_style].
  rewrite chunks_entries_from. reflexivity.
Qed.

Lemma provider_entries_document :
  provider_entries document = entry_groups 1 providers.
Proof. apply provider_entries_preamble. Qed.

Section Proofs.

Context {Env : Type}.
Variable build :
  SimpleDocTemplate → list Flowable → Env → Outcome unit * (list Flowable * Env).

Local Abbreviation State := (State Env).

(** One turn of the loop on a complete record appends its eight blocks and
    touches nothing else. *)
Lemma loop_body_ok (i : nat) (p : Provider) (st : State) :
  has_fields p →
  loop_body i p st =
  (Returned tt, mkState (g_story st ++ entry i p) (g_providers st)
                        (trace st) (env st)).
Proof.
  intros Hp. unfold loop_body, mbind, M_bind, getitem, story_append.
  rewrite !(has_fields_lookup p) by (try assumption; solve_elem_of_list).
  cbn. rewrite <- !app_assoc. reflexivity.
Qed.

Lemma for_enumerate_ok (ps : list Provider) :
  Forall has_fields ps →
  ∀ (start : nat) (st : State),
    for_enumerate loop_body start ps st =
    (Returned tt, mkState (g_story st ++ entries_from start ps)
                          (g_providers st) (trace st) (env st)).
Proof.
  induction 1 as [|p ps Hp _ IH]; intros start st.
  - cbn. rewrite app_nil_r. destruct st; reflexivity.
  - cbn [for_enumerate entries_from]. unfold mbind, M_bind.
    rewrite loop_body_ok by assumption. rewrite IH. cbn.
    rewrite <- app_assoc. reflexivity.
Qed.


(** A turn of the loop, complete record or not, leaves the providers, the
    trace and the environment alone. *)
Lemma loop_body_frame (i : nat) (p : Provider) (st : State) :
  g_providers (snd (loop_body i p st)) = g_providers st ∧
  trace (snd (loop_body i p st)) = trace st ∧
  env (snd (loop_body i p st)) = env st.
Proof.
  unfold loop_body, mbind, M_bind, getitem, story_append.
  repeat (case_match; simplify_eq; cbn in * ); auto.
Qed.

Lemma for_enumerate_frame (ps : list Provider) :
  ∀ (start : nat) (st : State),
    g_providers (snd (for_enumerate loop_body start ps st)) = g_providers st ∧
    trace (snd (for_enumerate loop_body start ps st)) = trace st ∧
    env (snd (for_enumerate loop_body start ps st)) = env st.
Proof.
  induction ps as [|p ps IH]; intros start st; [cbn; auto|].
  cbn [for_enumerate]. unfold mbind, M_bind.
  pose proof (loop_body_frame start p st) as (Hp & Ht & He).
  destruct (loop_body start p st) as [[[]|x] st1]; cbn in *.
  - destruct (IH (S start) st1) as (Hp' & Ht' & He').
    rewrite Hp', Ht', He'. auto.
  - auto.
Qed.

(** A record without a key stops the loop with [KeyError]. *)
Lemma loop_body_missing_name (i : nat) (p : Provider) (st : State) :
  p !! "name" = None → loop_body i p st = (Raised (KeyError "name"), st).
Proof.
  intros Hp. unfold loop_body, mbind, M_bind, getitem. rewrite Hp. reflexivity.
Qed.

(** Lines 13-74 always succeed and leave [document] in [story]. *)
Lemma assemble_spec (st : State) :
  assemble st = (Returned tt, mkState document providers (trace st) (env st)).
Proof.
  unfold assemble, stmt_for, mbind, M_bind. cbn -[providers for_enumerate].
  rewrite for_enumerate_ok by apply providers_have_fields.
  reflexivity.
Qed.

(** A record that lacks a key stops the body at that key, with the blocks
    appended so far left in the story. *)
Lemma loop_body_stops (i : nat) (p : Provider) (key : string) (st : State) :
  first_missing p = Some key →
  loop_body i p st =
  (Raised (KeyError key),
   mkState (g_story st ++ take (blocks_before key) (entry i p))
           (g_providers st) (trace st) (env st)).
Proof.
  destruct st as [story0 ps0 tr0 e0].
  unfold first_missing, field_names, lacks. cbn [List.find].
  unfold loop_body, mbind, M_bind, getitem, story_append, entry, field.
  destruct (p !! "name") eqn:Hname; [|intros [= <-]; cbn; by rewrite app_nil_r].
  destruct (p !! "npi") eqn:Hnpi;
    [|intros [= <-]; cbn; by rewrite <- !app_assoc].
  destruct (p !! "phone") eqn:Hphone;
    [|intros [= <-]; cbn; by rewrite <- !app_assoc].
  destruct (p !! "address") eqn:Haddress;
    [|intros [= <-]; cbn; by rewrite <- !app_assoc].
  destruct (p !! "city") eqn:Hcity;
    [|intros [= <-]; cbn; by rewrite <- !app_assoc].
  destruct (p !! "specialty") eqn:Hspecialty;
    [|intros [= <-]; cbn; by rewrite <- !app_assoc].
  discriminate.
Qed.

Lemma first_missing_None (p : Provider) :
  first_missing p = None → has_fields p.
Proof.
  unfold first_missing, field_names, lacks, has_fields. cbn [List.find].
  destruct (p !! "name") eqn:Hname; [|discriminate].
  destruct (p !! "npi") eqn:Hnpi; [|discriminate].
  destruct (p !! "phone") eqn:Hphone; [|discriminate].
  destruct (p !! "address") eqn:Haddress; [|discriminate].
  destruct (p !! "city") eqn:Hcity; [|discriminate].
  destruct (p !! "specialty") eqn:Hspecialty; [|discriminate].
  intros _. repeat apply Forall_cons_2; try apply Forall_nil_2; eauto.
Qed.

(** What one turn appends, complete record or not: at most eight blocks
    after what was there. *)
Lemma loop_body_appends (i : nat) (p : Provider) (st : State) :
  ∃ bs, g_story (snd (loop_body i p st)) = g_story st ++ bs ∧ (length bs ≤ 8)%nat.
Proof.
  destruct (first_missing p) as [key|] eqn:Hm.
  - rewrite (loop_body_stops i p key st Hm). cbn [snd g_story].
    eexists. split; [reflexivity|].
    rewrite length_take, length_entry. lia.
  - rewrite (loop_body_ok i p st (first_missing_None p Hm)). cbn [snd g_story].
    exists (entry i p). split; [reflexivity|]. rewrite length_entry. lia.
Qed.

(** A loop that returned has met complete records only. *)
Lemma for_enumerate_returned (ps : list Provider) :
  ∀ (start : nat) (st : State),
    fst (for_enumerate loop_body start ps st) = Returned tt →
    Forall has_fields ps.
Proof.
  induction ps as [|p ps IH]; intros start st Hret.
  - apply Forall_nil_2.
  - cbn [for_enumerate] in Hret. unfold mbind, M_bind in Hret.
    destruct (first_missing p) as [key|] eqn:Hm.
    + rewrite (loop_body_stops start p key st Hm) in Hret. discriminate Hret.
    + pose proof (first_missing_None p Hm) as Hp.
      rewrite (loop_body_ok start p st Hp) in Hret.
      apply Forall_cons_2; [exact Hp|]. exact (IH _ _ Hret).
Qed.

Lemma kinds_of_entries_from (ps : list Provider) :
  ∀ start, map kind (entries_from start ps) = repeat_kinds (length ps).
Proof.
  induction ps as [|p ps IH]; intros start; [reflexivity|].
  cbn [entries_from length repeat_kinds]. rewrite map_app, IH. reflexivity.
Qed.

(** ** Lemmas on the prints and on a run *)

Variable stdout_write : string → Env → Outcome unit * Env.

Lemma console_prints (lines : list string) : console (map EvPrint lines) = lines.
Proof. induction lines as [|l lines IH]; cbn; [|rewrite IH]; reflexivity. Qed.

Lemma builds_prints (lines : list string) : builds (map EvPrint lines) = [].
Proof. induction lines as [|l lines IH]; cbn; [reflexivity|exact IH]. Qed.

(** The lines written are the first lines of those asked for. *)
Lemma print_all_prefix (lines : list string) :
  ∀ e, fst (snd (print_all stdout_write lines e)) `prefix_of` lines.
Proof.
  induction lines as [|l lines IH]; intros e; cbn [print_all].
  - apply prefix_nil.
  - destruct (stdout_write l e) as [[u|x] e1].
    + specialize (IH e1).
      destruct (print_all stdout_write lines e1) as [r [written e2]].
      cbn [fst snd] in *. apply prefix_cons. exact IH.
    + apply prefix_nil.
Qed.

(** All of them are written exactly when no write raised. *)
Lemma print_all_returned (lines : list string) :
  ∀ e, fst (print_all stdout_write lines e) = Returned tt ↔
       fst (snd (print_all stdout_write lines e)) = lines.
Proof.
  induction lines as [|l lines IH]; intros e; cbn [print_all].
  - split; reflexivity.
  - destruct (stdout_write l e) as [[u|x] e1].
    + specialize (IH e1).
      destruct (print_all stdout_write lines e1) as [r [written e2]].
      cbn [fst snd] in *. rewrite IH. split; [intros ->; reflexivity|].
      intros [= Hw]. exact Hw.
    + cbn [fst snd]. split; discriminate.
Qed.

(** Lines 78-80 from any state: the three prints in order, the count taken
    from the list held in [providers]; the first write that raises ends
    them. *)
Lemma report_spec (st : State) :
  report stdout_write st =
  (fst (print_all stdout_write (report_lines_for (length (g_providers st))) (env st)),
   mkState (g_story st) (g_providers st)
     (trace st ++
      map EvPrint
        (fst (snd (print_all stdout_write
                     (report_lines_for (length (g_providers st))) (env st)))))
     (snd (snd (print_all stdout_write
                  (report_lines_for (length (g_providers st))) (env st))))).
Proof.
  unfold report, report_lines_for, mbind, M_bind, print, get_providers.
  change (check_mark +:+ " Test PDF created: " +:+ pdf_file) with line_created.
  change "  Upload this file to test the PDF OCR feature" with line_upload.
  cbn [print_all g_story g_providers trace env].
  destruct (stdout_write line_created (env st)) as [[u1|x1] e1];
    cbn [fst snd map g_story g_providers trace env]; [|by rewrite app_nil_r].
  destruct (stdout_write _ e1) as [[u2|x2] e2];
    cbn [fst snd map g_story g_providers trace env]; [|reflexivity].
  destruct (stdout_write line_upload e2) as [[u3|x3] e3];
    cbn [fst snd map g_story g_providers trace env];
    rewrite <- ?app_assoc; reflexivity.
Qed.

(** What a run is, for every environment, every behaviour of the library
    and every behaviour of the console. *)
Lemma run_spec (e : Env) :
  run build stdout_write e =
  match build doc document e with
  | (Returned _, (fs', e1)) =>
      (fst (print_all stdout_write report_lines e1),
       mkState fs' providers
         (EvBuild doc document ::
          map EvPrint (fst (snd (print_all stdout_write report_lines e1))))
         (snd (snd (print_all stdout_write report_lines e1))))
  | (Raised x, (fs', e1)) =>
      (Raised x, mkState fs' providers [EvBuild doc document] e1)
  end.
Proof.
  unfold run, script. unfold mbind at 1 2. unfold M_bind.
  rewrite assemble_spec. unfold doc_build. cbn [g_story env trace g_providers initial].
  destruct (build doc document e) as [[[]|x] [fs' e1]]; [|reflexivity].
  rewrite report_spec. cbn [g_story env trace g_providers app].
  change (report_lines_for (length providers)) with report_lines.
  reflexivity.
Qed.

(** ** The claims *)



(** C3: in every environment, for every behaviour of the library and of the
    console, the run makes exactly one build call, on the document named
    [test_providers.pdf], a name with no directory part; the environment the
    run leaves is the one that build call left, followed by the effect of
    the prints when the build returned: the script does nothing else to the
    outside world. *)
Theorem output_file_is_fixed (e : Env) :
  map (λ b, filename (fst b)) (builds (trace (snd (run build stdout_write e)))) =
    ["test_providers.pdf"] ∧
  pdf_file = "test_providers.pdf" ∧
  bare_filename pdf_file = true ∧
  builds (trace (snd (run build stdout_write e))) = [(doc, document)] ∧
  env (snd (run build stdout_write e)) =
    (if exits_normally (fst (build doc document e))
     then snd (snd (print_all stdout_write report_lines
                      (snd (snd (build doc document e)))))
     else snd (snd (build doc document e))).
Proof.
  rewrite run_spec.
  destruct (build doc document e) as [[[]|x] [fs' e1]];
    cbn [fst snd trace env builds exits_normally]; rewrite ?builds_prints;
    repeat split.
Qed.

(** C5: the loop and the build call leave [providers] as it is from any
    state, and after a run, successful or not, [providers] is the literal
    list. *)
Theorem providers_unchanged :
  (∀ st : State, g_providers (snd (stmt_for st)) = g_providers st) ∧
  (∀ (d : SimpleDocTemplate) (st : State),
     g_providers (snd (doc_build build d st)) = g_providers st) ∧
  (∀ e : Env, g_providers (snd (run build stdout_write e)) = providers).
Proof.
  split; [|split].
  - intros st. unfold stmt_for, mbind, M_bind, get_providers.
    apply for_enumerate_frame.
  - intros d st. unfold doc_build.
    destruct (build d (g_story st) (env st)) as [r [fs' e']]. reflexivity.
  - intros e. rewrite run_spec.
    destruct (build doc document e) as [[[]|x] [fs' e']]; reflexivity.
Qed.

(** C6: when the build call raises, the run ends with that very exception
    and nothing at all has been printed. *)
Theorem build_failure_propagates (e : Env) (x : Exn) :
  fst (build doc document e) = Raised x →
  fst (run build stdout_write e) = Raised x ∧
  trace (snd (run build stdout_write e)) = [EvBuild doc document] ∧
  console (trace (snd (run build stdout_write e))) = [].
Proof.
  intros Hx. rewrite run_spec.
  destruct (build doc document e) as [[[]|y] [fs' e']]; cbn in Hx;
    [discriminate Hx|]. injection Hx as ->. repeat split.
Qed.

(** C7: the run makes one build call, after all the appends and before any
    print; the list handed over is the two opening blocks followed by the
    entries of the providers in list order, one entry per record, so that
    the record at position k is the entry at position k, numbered k+1. *)
Theorem entries_follow_list_order (e : Env) :
  (∃ lines, trace (snd (run build stdout_write e)) =
            EvBuild doc document :: map EvPrint lines) ∧
  document = preamble ++ concat (entry_groups 1 providers) ∧
  length (provider_entries document) = length providers ∧
  (∀ (k : nat) (p : Provider),
     providers !! k = Some p →
     provider_entries document !! k = Some (entry (S k) p)).
Proof.
  split; [|split; [|split]].
  - rewrite run_spec.
    destruct (build doc document e) as [[[]|x] [fs' e']].
    + eexists. reflexivity.
    + exists []. reflexivity.
  - unfold document. rewrite entries_from_concat. reflexivity.
  - rewrite provider_entries_document. apply length_entry_groups.
  - intros k p Hk. rewrite provider_entries_document.
    apply (entry_groups_lookup providers 1 k p Hk).
Qed.


(** C9: the second printed line, when there is one, is the count line built
    from [len(providers)]; that number is 4 and is the number of provider
    entries in the content handed to the build call. *)
Theorem printed_count_is_number_of_entries (e : Env) (line : string) :
  console (trace (snd (run build stdout_write e))) !! 1 = Some line →
  line = "  Contains " +:+ str (length providers) +:+ " sample providers" ∧
  line = "  Contains 4 sample providers" ∧
  builds (trace (snd (run build stdout_write e))) = [(doc, document)] ∧
  length (provider_entries document) = length providers ∧
  length providers = 4.
Proof.
  rewrite provider_entries_document, length_entry_groups, run_spec.
  destruct (build doc document e) as [[[]|x] [fs' e']];
    cbn [fst snd trace console builds]; intros Hl; [|discriminate Hl].
  rewrite console_prints in Hl. rewrite builds_prints.
  apply (prefix_lookup_Some _ report_lines) in Hl; [|apply print_all_prefix].
  injection Hl as <-. repeat split.
Qed.

(** C10, as the code has it: the story the script assembles is the two
    opening blocks followed by eight blocks per provider, those of the k-th
    record being the heading numbered k+1, a spacer, the npi, phone, address
    and city lines, the specialty line as the 7th and a spacer as the 8th,
    2 + 8*4 = 34 blocks in all; and from any state, a loop that returns has
    appended eight blocks per provider, of the kinds heading, spacer, five
    normal paragraphs, spacer. *)
Theorem story_has_eight_blocks_per_provider :
  (∀ st0 : State,
     g_story (snd (assemble st0)) =
       preamble ++ concat (entry_groups 1 providers) ∧
     (∀ (k : nat) (p : Provider),
        providers !! k = Some p →
        entry_groups 1 providers !! k =
          Some [ Paragraph (str (S k) +:+ ". " +:+ field p "name") (styles "Heading2");
                 Spacer (pt 1) (tenth_inch 1);
                 Paragraph (field p "npi") (styles "Normal");
                 Paragraph (field p "phone") (styles "Normal");
                 Paragraph (field p "address") (styles "Normal");
                 Paragraph (field p "city") (styles "Normal");
                 Paragraph ("<b>Specialty:</b> " +:+ field p "specialty")
                           (styles "Normal");
                 Spacer (pt 1) (tenth_inch 2) ]) ∧
     length (g_story (snd (assemble st0))) = 2 + 8 * length providers ∧
     length (g_story (snd (assemble st0))) = 34) ∧
  (∀ st : State,
     fst (stmt_for st) = Returned tt →
     (∃ bs, g_story (snd (stmt_for st)) = g_story st ++ bs ∧
            map kind bs = repeat_kinds (length (g_providers st))) ∧
     length (g_story (snd (stmt_for st))) =
       length (g_story st) + 8 * length (g_providers st)).
Proof.
  split.
  - intros st0. rewrite assemble_spec. cbn [snd g_story].
    split; [unfold document; by rewrite entries_from_concat|].
    split; [intros k p Hk; apply (entry_groups_lookup _ 1 k p Hk)|].
    split; reflexivity.
  - intros st Hret. unfold stmt_for, mbind, M_bind, get_providers in Hret |- *.
    cbn [fst snd] in Hret |- *.
    pose proof (for_enumerate_returned _ _ _ Hret) as Hps.
    rewrite (for_enumerate_ok _ Hps). cbn [fst snd g_story g_providers].
    split.
    + eexists. split; [reflexivity|]. apply kinds_of_entries_from.
    + rewrite length_app, length_entries_from. reflexivity.
Qed.

End Proofs.

(** C4: every record of [providers] has exactly the six keys name, npi,
    phone, address, city and specialty, and its specialty is one of the four
    labels: as written in the source, capitalised; folded to lower case, the
    four words of the specification. *)
Theorem provider_records_have_six_fields :
  Forall (λ p : Provider,
            dom p = ({[ "name"; "npi"; "phone"; "address"; "city"; "specialty" ]}
                     : gset string) ∧
            size p = 6 ∧
            ∃ label, p !! "specialty" = Some label ∧
                     label ∈ ["Cardiologist"; "Physician"; "Dentist"; "Surgeon"] ∧
                     casefold label ∈ ["cardiologist"; "physician"; "dentist"; "surgeon"])
         providers.
Proof.
  unfold providers.
  repeat apply Forall_cons_2; [| | | |apply Forall_nil_2].
  all: split; [vm_compute; reflexivity|].
  all: split; [vm_compute; reflexivity|].
  all: eexists; split; [vm_compute; reflexivity|].
  all: split; [|vm_compute]; solve_elem_of_list.
Qed.

(** ** Counterexamples to the claims the code does not meet *)




(** C10 as stated fails: the story of the four providers has 34 blocks, not
    30 = 2 + 7*4; each provider takes eight blocks, the sixth being the city
    line, the seventh the specialty line and the eighth the spacer. *)
Lemma story_is_not_thirty_blocks :
  builds (trace (snd (run sample_build sample_write empty_disk))) = [(doc, document)] ∧
  length document = 34 ∧
  length document ≠ 2 + 7 * length providers ∧
  document !! (2 + 5) = Some (Paragraph "New York, NY 10001" (styles "Normal")) ∧
  document !! (2 + 6) =
    Some (Paragraph "<b>Specialty:</b> Cardiologist" (styles "Normal")) ∧
  document !! (2 + 7) = Some (Spacer (pt 1) (tenth_inch 2)) ∧
  document !! (2 + 8) = Some (Paragraph "2. Dr. Jane Doe" (styles "Heading2")).
Proof.
  split; [vm_compute; reflexivity|]. split; [vm_compute; reflexivity|].
  split; [vm_compute; discriminate|].
  repeat (split; [vm_compute; reflexivity|]). vm_compute. reflexivity.
Qed.

(** ** The theorems at concrete inputs *)

(** With the sample library and a UTF-8 console the run leaves exactly one
    file, under the script's file name, holding the document. *)
Example run_writes_one_file :
  files (env (snd (run sample_build sample_write empty_disk))) =
    {[ "test_providers.pdf" := document ]}.
Proof. vm_compute. reflexivity. Qed.



Lemma build_failure_propagates_at_readonly_disk :
  fst (sample_build doc document readonly_disk) =
    Raised (LibraryError "PermissionError") ∧
  fst (run sample_build sample_write readonly_disk) =
    Raised (LibraryError "PermissionError") ∧
  console (trace (snd (run sample_build sample_write readonly_disk))) = [].
Proof.
  split; [reflexivity|].
  destruct (build_failure_propagates sample_build sample_write readonly_disk
              (LibraryError "PermissionError")) as (Hr & _ & Hc); [reflexivity|].
  split; [exact Hr | exact Hc].
Defined.


Lemma printed_count_is_number_of_entries_at_empty_disk :
  console (trace (snd (run sample_build sample_write empty_disk))) !! 1 =
    Some line_count ∧
  line_count = "  Contains " +:+ str (length providers) +:+ " sample providers".
Proof.
  assert (Hl : console (trace (snd (run sample_build sample_write empty_disk)))
                 !! 1 = Some line_count) by (vm_compute; reflexivity).
  split; [exact Hl|].
  destruct (printed_count_is_number_of_entries sample_build sample_write
              empty_disk line_count Hl) as (Hline & _).
  exact Hline.
Defined.

Lemma story_has_eight_blocks_per_provider_at_providers :
  fst (stmt_for (mkState preamble providers [] empty_disk)) = Returned tt ∧
  length (g_story (snd (stmt_for (mkState preamble providers [] empty_disk)))) =
    length preamble + 8 * length providers.
Proof.
  assert (Hret : fst (stmt_for (mkState preamble providers [] empty_disk)) =
                 Returned tt) by (vm_compute; reflexivity).
  split; [exact Hret|].
  destruct (proj2 story_has_eight_blocks_per_provider
              (mkState preamble providers [] empty_disk) Hret)
    as (_ & Hlen).
  exact Hlen.
Defined.

(** ** The loop on arbitrary records *)

Section Loop.

Context {Env : Type}.

Local Abbreviation State := (State Env).

(** A loop that returns without exception has met only records that hold
    the six keys. *)
Theorem loop_returns_only_on_complete_records
    (ps : list Provider) (start : nat) (st : State) :
  fst (for_enumerate loop_body start ps st) = Returned tt →
  Forall has_fields ps.
Proof. apply for_enumerate_returned. Qed.

(** A record that lacks a key stops the loop: the loop raises, the story
    has grown by at most eight blocks for each record before the faulty one
    plus the blocks the body appends before it reads the missing key, and
    so no later record is rendered. *)
Theorem loop_stops_at_first_incomplete_record
    (before rest : list Provider) (p : Provider) (key : string)
    (start : nat) (st : State) :
  first_missing p = Some key →
  exits_normally (fst (for_enumerate loop_body start (before ++ p :: rest) st))
    = false ∧
  ∃ bs,
    g_story (snd (for_enumerate loop_body start (before ++ p :: rest) st)) =
      g_story st ++ bs ∧
    (length bs ≤ 8 * length before + blocks_before key)%nat.
Proof.
  intros Hm. revert start st.
  induction before as [|q before IH]; intros start st.
  - cbn [app for_enumerate length]. unfold mbind, M_bind.
    rewrite (loop_body_stops start p key st Hm). cbn [fst snd g_story].
    split; [reflexivity|]. eexists. split; [reflexivity|].
    rewrite length_take. lia.
  - cbn [app for_enumerate length]. unfold mbind, M_bind.
    destruct (loop_body_appends start q st) as (bs & Hbs & Hlen).
    destruct (loop_body start q st) as [[[]|x] st1]; cbn [snd] in Hbs.
    + destruct (IH (S start) st1) as (Hraise & bs' & Hbs' & Hlen').
      split; [exact Hraise|]. exists (bs ++ bs').
      rewrite Hbs', Hbs, <- app_assoc. split; [reflexivity|].
      rewrite length_app. lia.
    + cbn [fst snd]. split; [reflexivity|]. exists bs.
      split; [exact Hbs|]. lia.
Qed.

(** Whatever the records, the loop only appends: the story it found is a
    prefix of the story it leaves, and it adds at most eight blocks per
    record. *)
Theorem loop_only_appends (ps : list Provider) (start : nat) (st : State) :
  ∃ bs, g_story (snd (for_enumerate loop_body start ps st)) = g_story st ++ bs ∧
        (length bs ≤ 8 * length ps)%nat.
Proof.
  revert start st. induction ps as [|p ps IH]; intros start st.
  - exists []. cbn. rewrite app_nil_r. split; [reflexivity|lia].
  - cbn [for_enumerate]. unfold mbind, M_bind.
    destruct (loop_body_appends start p st) as (bs & Hbs & Hlen).
    destruct (loop_body start p st) as [[[]|x] st1]; cbn [snd] in Hbs |- *.
    + destruct (IH (S start) st1) as (bs' & Hbs' & Hlen').
      exists (bs ++ bs'). rewrite Hbs', Hbs, <- app_assoc.
      split; [reflexivity|]. rewrite length_app. cbn [length]. lia.
    + exists bs. split; [exact Hbs|]. cbn [length]. lia.
Qed.

(** The loop body reads the six keys and nothing else: two records that
    agree on them behave alike, whatever other keys they hold. *)
Theorem loop_body_reads_only_six_keys
    (i : nat) (p q : Provider) (st : State) :
  (∀ key, key ∈ field_names → p !! key = q !! key) →
  loop_body i p st = loop_body i q st.
Proof.
  intros Hpq. unfold loop_body, mbind, M_bind, getitem.
  rewrite (Hpq "name"), (Hpq "npi"), (Hpq "phone"), (Hpq "address"),
    (Hpq "city"), (Hpq "specialty") by solve_elem_of_list.
  reflexivity.
Qed.

(** Lines 13-74 from any interpreter state: they return, print nothing and
    leave the environment alone, and what they leave in [story] and
    [providers] does not depend on what those held before. *)
Theorem assemble_has_no_outside_effect (st : State) :
  fst (assemble st) = Returned tt ∧
  trace (snd (assemble st)) = trace st ∧
  env (snd (assemble st)) = env st ∧
  ∀ st' : State,
    g_story (snd (assemble st')) = g_story (snd (assemble st)) ∧
    g_providers (snd (assemble st')) = g_providers (snd (assemble st)).
Proof.
  rewrite assemble_spec. cbn [fst snd trace env].
  repeat split; rewrite assemble_spec; reflexivity.
Qed.

End Loop.

(** ** A print that fails *)

Section Prints.

Context {Env : Type}.
Variable build :
  SimpleDocTemplate → list Flowable → Env → Outcome unit * (list Flowable * Env).
Variable stdout_write : string → Env → Outcome unit * Env.

(** When the build call has returned and a print raises, the run ends with
    that exception although the build was made; the console holds the lines
    printed before the failing one, fewer than three, and the environment is
    the one the failing write left. *)
Theorem print_failure_propagates (e : Env) (x : Exn) :
  exits_normally (fst (build doc document e)) = true →
  fst (print_all stdout_write report_lines (snd (snd (build doc document e))))
    = Raised x →
  fst (run build stdout_write e) = Raised x ∧
  builds (trace (snd (run build stdout_write e))) = [(doc, document)] ∧
  console (trace (snd (run build stdout_write e))) =
    fst (snd (print_all stdout_write report_lines
                (snd (snd (build doc document e))))) ∧
  (length (console (trace (snd (run build stdout_write e)))) < 3)%nat.
Proof.
  intros Hok Hx. rewrite run_spec.
  destruct (build doc document e) as [[[]|y] [fs' e1]]; [|discriminate Hok].
  cbn [fst snd trace console builds] in *.
  rewrite builds_prints, console_prints.
  split; [exact Hx|]. split; [reflexivity|]. split; [reflexivity|].
  pose proof (print_all_prefix stdout_write report_lines e1) as Hpre.
  pose proof (print_all_returned stdout_write report_lines e1) as Hret.
  apply prefix_length in Hpre as Hle. cbn [report_lines length] in Hle.
  destruct (decide (length (fst (snd (print_all stdout_write report_lines e1)))
                    = 3)) as [Heq|Hne]; [|lia].
  assert (Hall : fst (snd (print_all stdout_write report_lines e1)) = report_lines)
    by (apply (prefix_length_eq _ _ Hpre); rewrite Heq; reflexivity).
  apply Hret in Hall. rewrite Hx in Hall. discriminate Hall.
Qed.

End Prints.

(** ** The loop theorems at concrete records *)

Lemma complete_record_has_fields : has_fields complete_record.
Proof.
  unfold has_fields, field_names.
  repeat apply Forall_cons_2; try apply Forall_nil_2;
    vm_compute; eexists; reflexivity.
Qed.

Lemma record_with_email_agrees (key : string) :
  key ∈ field_names → record_with_email !! key = complete_record !! key.
Proof.
  intros Hkey. unfold record_with_email. apply lookup_insert_ne.
  intros <-. unfold field_names in Hkey.
  rewrite !elem_of_cons, elem_of_nil in Hkey.
  destruct Hkey as [H|[H|[H|[H|[H|[H|[]]]]]]]; discriminate H.
Qed.

Lemma loop_returns_only_on_complete_records_at_providers :
  fst (for_enumerate loop_body 1 providers (initial tt)) = Returned tt ∧
  Forall has_fields providers.
Proof.
  assert (Hret : fst (for_enumerate loop_body 1 providers (initial tt)) =
                 Returned tt) by (vm_compute; reflexivity).
  split; [exact Hret|].
  exact (loop_returns_only_on_complete_records providers 1 (initial tt) Hret).
Defined.

Lemma loop_stops_at_first_incomplete_record_at_missing_address :
  first_missing record_without_address = Some "address" ∧
  exits_normally
    (fst (for_enumerate loop_body 1
            ([complete_record] ++ record_without_address :: [complete_record])
            (initial tt))) = false.
Proof.
  assert (Hm : first_missing record_without_address = Some "address")
    by (vm_compute; reflexivity).
  split; [exact Hm|].
  exact (proj1 (loop_stops_at_first_incomplete_record
                  [complete_record] [complete_record] record_without_address
                  "address" 1 (initial tt) Hm)).
Defined.

Lemma loop_body_reads_only_six_keys_at_email :
  (∀ key, key ∈ field_names → record_with_email !! key = complete_record !! key) ∧
  loop_body 1 record_with_email (initial tt) =
  loop_body 1 complete_record (initial tt).
Proof.
  split; [exact record_with_email_agrees|].
  exact (loop_body_reads_only_six_keys 1 record_with_email complete_record
           (initial tt) record_with_email_agrees).
Defined.

Lemma print_failure_propagates_at_ascii_console :
  exits_normally (fst (sample_build doc document ascii_console)) = true ∧
  fst (print_all sample_write report_lines
         (snd (snd (sample_build doc document ascii_console)))) =
    Raised (OutputError "UnicodeEncodeError") ∧
  fst (run sample_build sample_write ascii_console) =
    Raised (OutputError "UnicodeEncodeError").
Proof.
  assert (Hx : fst (print_all sample_write report_lines
                      (snd (snd (sample_build doc document ascii_console)))) =
               Raised (OutputError "UnicodeEncodeError"))
    by (vm_compute; reflexivity).
  split; [reflexivity|]. split; [exact Hx|].
  exact (proj1 (print_failure_propagates sample_build sample_write ascii_console
                  (OutputError "UnicodeEncodeError") eq_refl Hx)).
Defined.
